(** * MFAnalyzer: the fund analytics engine of [app.py]

    A shallow embedding of the class [FundAnalyzer] and of the part of the
    [analyze] route that drives it, followed by the properties of the
    engine that the specification states.

    Conventions of the embedding.
    - Python and NumPy floats are IEEE 754 binary64 numbers: Rocq's primitive
      [float], whose operations the kernel evaluates bit for bit.
    - A [pd.Timestamp] is its number of nanoseconds since the epoch, a [Z];
      [NaT] (the maximum of an empty column) is [None].
    - The frame [self.df] is the list of its rows, in frame order.
    - An exception is a value [Raise e] of the [result] monad; Python's
      [None] is [None] of an [option], or [PyNone] where an object is
      dynamically typed.
    - [x ** y] on floats is the C library's [pow]; it is a parameter
      ([float_pow]) of the two methods that use it. *)

From Stdlib Require Import String Ascii.
From Stdlib Require Import ZArith List Bool Lia.
From Stdlib Require Import Floats Uint63 DecimalString DecimalZ.
From Stdlib Require Import Sorted Permutation.
Import ListNotations.

Set Warnings "-inexact-float".
Local Open Scope Z_scope.

(* ================================================================== *)
(** ** The Python layer: exceptions, objects, operators *)
(* ================================================================== *)

Module Py.

Inductive exn : Type :=
| TypeError
| IndexError
| KeyError
| ZeroDivisionError.

Inductive result (A : Type) : Type :=
| Ok (a : A)
| Raise (e : exn).
Arguments Ok {A} a.
Arguments Raise {A} e.

Definition bind {A B : Type} (m : result A) (k : A -> result B) : result B :=
  match m with
  | Ok a => k a
  | Raise e => Raise e
  end.

Fixpoint mapM {A B : Type} (f : A -> result B) (l : list A) : result (list B) :=
  match l with
  | [] => Ok []
  | x :: l' =>
      bind (f x) (fun y => bind (mapM f l') (fun ys => Ok (y :: ys)))
  end.

(** The objects that reach a dynamically typed operator in [app.py]. *)
Inductive object : Type :=
| PyNone
| PyInt (n : Z)
| PyFloat (x : float)
| PyTimestamp (t : Z).

(** [float(n)] for an int within the 63-bit range. *)
Definition float_of_Z (n : Z) : float :=
  match n with
  | Z0 => 0%float
  | Zpos _ => PrimFloat.of_uint63 (Uint63.of_Z n)
  | Zneg p => PrimFloat.opp (PrimFloat.of_uint63 (Uint63.of_Z (Zpos p)))
  end.

Definition as_float (o : object) : option float :=
  match o with
  | PyFloat x => Some x
  | PyInt n => Some (float_of_Z n)
  | PyNone | PyTimestamp _ => None
  end.

(** A numeric operator on two objects: defined on numbers; [None] and a
    [Timestamp] implement none of [*], [/], [**], nor [+] with a number, so
    Python raises [TypeError]. *)
Definition arith (op : float -> float -> float) (a b : object) : result object :=
  match as_float a, as_float b with
  | Some x, Some y => Ok (PyFloat (op x y))
  | _, _ => Raise TypeError
  end.

Definition mul := arith PrimFloat.mul.
Definition add := arith PrimFloat.add.
Definition sub := arith PrimFloat.sub.
Definition truediv := arith PrimFloat.div.

(** The float held by the result of a numeric operator. *)
Definition float_value (o : object) : result float :=
  match as_float o with
  | Some x => Ok x
  | None => Raise TypeError
  end.

(** [None] or a float, as an object. *)
Definition of_option (o : option float) : object :=
  match o with
  | Some x => PyFloat x
  | None => PyNone
  end.

(** [a > b]: IEEE comparison on numbers (false on NaN); ordering [None]
    against a number raises [TypeError] in Python 3. *)
Definition gt (a b : object) : result bool :=
  match as_float a, as_float b with
  | Some x, Some y => Ok (PrimFloat.ltb y x)
  | _, _ => Raise TypeError
  end.

(** The builtin [sum] of a list of floats: [0 + x1 + x2 + ...], left to
    right. *)
Definition sum (l : list float) : float :=
  fold_left PrimFloat.add l 0%float.

(** The builtin [sum] of a list of objects: [0 + o1 + o2 + ...]. *)
Definition sum_objects (l : list object) : result object :=
  fold_left (fun acc o => bind acc (fun a => add a o)) l (Ok (PyInt 0)).

(** [l[0]] on a list. *)
Definition item0 {A : Type} (l : list A) : result A :=
  match l with
  | [] => Raise IndexError
  | x :: _ => Ok x
  end.

(** [range(n)]. *)
Definition range (n : Z) : list Z :=
  map Z.of_nat (seq 0 (Z.to_nat n)).

(** [str(n)] for an int. *)
Definition str (n : Z) : string :=
  NilZero.string_of_int (Z.to_int n).

End Py.

Import Py.

Notation "x <- m ;; k" := (Py.bind m (fun x => k))
  (at level 61, m at next level, right associativity).
Notation "' p <- m ;; k" := (Py.bind m (fun p => k))
  (at level 61, p pattern, m at next level, right associativity).

(* ================================================================== *)
(** ** The pandas layer: columns, frames, selections *)
(* ================================================================== *)

Definition Timestamp := Z.

Module pd.

Definition ns_per_day : Z := 86400000000000.

(** [pd.Timedelta(days=d)], in nanoseconds. *)
Definition Timedelta (days : Z) : Z := days * ns_per_day.

(** [delta.days]: whole days, rounded towards minus infinity. *)
Definition days (delta : Z) : Z := delta / ns_per_day.

(** [column.max()] of a timestamp column; [None] is [NaT]. *)
Definition max (l : list Timestamp) : option Timestamp :=
  match l with
  | [] => None
  | t :: l' => Some (fold_left Z.max l' t)
  end.

(** [t - pd.Timedelta(days=d)]; [NaT] stays [NaT]. *)
Definition minus_days (t : option Timestamp) (d : Z) : option Timestamp :=
  option_map (fun t => t - Timedelta d) t.

(** [column >= bound] and [column <= bound] on one cell; every comparison
    with [NaT] is false. *)
Definition ge (t : Timestamp) (bound : option Timestamp) : bool :=
  match bound with
  | Some b => (b <=? t)
  | None => false
  end.

Definition le (t : Timestamp) (bound : option Timestamp) : bool :=
  match bound with
  | Some b => (t <=? b)
  | None => false
  end.

(** [series.iloc[i]] for the two positions the code uses, [0] and [-1]. *)
Definition iloc_first {A : Type} (l : list A) : result A :=
  match l with
  | [] => Raise IndexError
  | x :: _ => Ok x
  end.

Definition iloc_last {A : Type} (l : list A) : result A :=
  match rev l with
  | [] => Raise IndexError
  | x :: _ => Ok x
  end.

(** A slice bound of Python: negative bounds count from the end, and all
    bounds are clamped to the length. *)
Definition slice_bound (len k : Z) : Z :=
  if (k <? 0) then Z.max 0 (len + k) else Z.min k len.

(** [frame.iloc[start:stop]]. *)
Definition iloc_slice {A : Type} (l : list A) (start stop : Z) : list A :=
  let n := Z.of_nat (length l) in
  let a := slice_bound n start in
  let b := slice_bound n stop in
  firstn (Z.to_nat (b - a)) (skipn (Z.to_nat a) l).

(** [frame.sort_values(key)]: ascending, rows with equal keys kept in
    their order of arrival.  (The default sort of NumPy promises no order
    among rows with equal keys; on pairwise distinct keys every sort gives
    this result.) *)
Fixpoint insert_row {A : Type} (key : A -> Z) (x : A) (l : list A) : list A :=
  match l with
  | [] => [x]
  | y :: l' => if key x <=? key y then x :: y :: l' else y :: insert_row key x l'
  end.

Fixpoint sort_values {A : Type} (key : A -> Z) (l : list A) : list A :=
  match l with
  | [] => []
  | x :: l' => insert_row key x (sort_values key l')
  end.

(** [nav.pct_change()] on a column without missing values: the first cell
    is NaN, cell [i] is [nav[i] / nav[i-1] - 1]. *)
Fixpoint pct_change_from (prev : float) (l : list float) : list float :=
  match l with
  | [] => []
  | x :: l' => (x / prev - 1)%float :: pct_change_from x l'
  end.

Definition pct_change (l : list float) : list float :=
  match l with
  | [] => []
  | x :: l' => nan :: pct_change_from x l'
  end.

(** Reductions skip missing values ([skipna=True]). *)
Definition dropna (l : list float) : list float :=
  filter (fun x => negb (PrimFloat.is_nan x)) l.

Definition count (l : list float) : float :=
  float_of_Z (Z.of_nat (length (dropna l))).

(** [series.mean()]: sum over count; the mean of no value is [0/0], NaN.
    The sum is taken left to right; NumPy adds long columns pairwise, which
    can change the last bits of a sum that is not exact. *)
Definition mean (l : list float) : float :=
  (Py.sum (dropna l) / count l)%float.

(** [series.std()]: the sample standard deviation ([ddof=1]), NaN when at
    most one value is present. *)
Definition std (l : list float) : float :=
  let v := dropna l in
  if (length v <=? 1)%nat then nan
  else
    let avg := (Py.sum v / count l)%float in
    let sqr := map (fun x => ((avg - x) * (avg - x))%float) v in
    PrimFloat.sqrt (Py.sum sqr / (count l - 1))%float.

End pd.

(* ================================================================== *)
(** ** class FundAnalyzer *)
(* ================================================================== *)

(** A record of [fund_data.json]: [{'timestamp': {'$date': t}, 'nav': v}]. *)
Record Observation : Type := {
  obs_timestamp : Timestamp;
  obs_nav : float
}.

(** A row of [self.df], with its three columns. *)
Record Row : Type := {
  timestamp : Timestamp;
  nav : float;
  daily_returns : float
}.

Definition DataFrame := list Row.

Record FundAnalyzer : Type := {
  raw_data : list Observation;
  df : DataFrame;
  risk_free_rate : float
}.

(** [pd.Series(values, index=dates)]. *)
Record Series : Type := {
  values : list float;
  index : list Timestamp
}.

(** One entry of the historical-data dict: [{'dates': ..., 'values': ...}]. *)
Record History : Type := {
  h_dates : list Timestamp;
  h_values : list float
}.

(** The dict [metrics] built by [analyze]. *)
Record Metrics : Type := {
  absolute_returns : object;
  rolling_returns : object;
  cagr : object;
  xirr : object;
  sharpe_ratio : object
}.

(** The dict returned by [get_investment_recommendation]. *)
Record Recommendation : Type := {
  recommendation : string;
  score : Z;
  reasons : list string;
  action_items : list string
}.

(** A dict with string keys: insertion ordered, a key assigned twice keeps
    its place and takes the new value. *)
Fixpoint dict_set {V : Type} (d : list (string * V)) (k : string) (v : V)
  : list (string * V) :=
  match d with
  | [] => [(k, v)]
  | (k', v') :: d' =>
      if String.eqb k' k then (k, v) :: d' else (k', v') :: dict_set d' k v
  end.

Fixpoint dict_get {V : Type} (d : list (string * V)) (k : string) : option V :=
  match d with
  | [] => None
  | (k', v') :: d' => if String.eqb k' k then Some v' else dict_get d' k
  end.

(** [_preprocess_data]: the frame of the raw records, sorted by timestamp,
    with the column [daily_returns] added. *)
Definition _preprocess_data (raw_data : list Observation) : DataFrame :=
  let df := pd.sort_values obs_timestamp raw_data in
  map (fun '(o, r) =>
         {| timestamp := obs_timestamp o; nav := obs_nav o; daily_returns := r |})
      (combine df (pd.pct_change (map obs_nav df))).

(** [_get_risk_free_rate]: the fetched yield, or [4.0] when the download
    fails. *)
Definition _get_risk_free_rate (fetched : option float) : float :=
  match fetched with
  | Some r => r
  | None => 4.0%float
  end.

(** The object [__init__] builds. *)
Definition new_analyzer (fund_data : list Observation) (fetched : option float)
  : FundAnalyzer :=
  {| raw_data := fund_data;
     df := _preprocess_data fund_data;
     risk_free_rate := _get_risk_free_rate fetched |}.

(** [__init__]: a frame built from no record has no column [timestamp]. *)
Definition __init__ (fund_data : list Observation) (fetched : option float)
  : result FundAnalyzer :=
  match fund_data with
  | [] => Raise KeyError
  | _ => Ok (new_analyzer fund_data fetched)
  end.

(** [self.df[(self.df['timestamp'] >= start_date) &
             (self.df['timestamp'] <= end_date)]]. *)
Definition between (df : DataFrame) (start_date end_date : option Timestamp)
  : DataFrame :=
  filter (fun r => pd.ge (timestamp r) start_date && pd.le (timestamp r) end_date) df.

(** [if end_date is None: end_date = self.df['timestamp'].max()]. *)
Definition default_end_date (self : FundAnalyzer) (end_date : option Timestamp)
  : option Timestamp :=
  match end_date with
  | None => pd.max (map timestamp (df self))
  | Some t => Some t
  end.

(** The body of the loop of [get_historical_data]. *)
Definition period_history (self : FundAnalyzer) (end_date : option Timestamp)
  (period : Z) : History :=
  let days := period * 30 in
  let start_date := pd.minus_days end_date days in
  let period_data := filter (fun r => pd.ge (timestamp r) start_date) (df self) in
  {| h_dates := map timestamp period_data; h_values := map nav period_data |}.

Definition month_key (period : Z) : string :=
  (Py.str period ++ "_month")%string.

Definition get_historical_data (self : FundAnalyzer) (periods : list Z)
  : list (string * History) :=
  let end_date := pd.max (map timestamp (df self)) in
  fold_left
    (fun historical_data period =>
       dict_set historical_data (month_key period)
                (period_history self end_date period))
    periods [].

Definition calculate_absolute_returns (self : FundAnalyzer)
  (start_date end_date : Timestamp) : result (option float) :=
  let period_data := between (df self) (Some start_date) (Some end_date) in
  if Z.of_nat (length period_data) <? 2 then Ok None
  else
    initial_value <- pd.iloc_first (map nav period_data) ;;
    final_value <- pd.iloc_last (map nav period_data) ;;
    Ok (Some ((final_value - initial_value) / initial_value * 100)%float).

(** One turn of the loop of [calculate_rolling_returns]; the state is the
    pair of lists [rolling_returns], [dates]. *)
Definition rolling_step (self : FundAnalyzer) (period_data : DataFrame)
  (window_days : Z) (state : list float * list Timestamp) (i : Z)
  : result (list float * list Timestamp) :=
  let '(rolling_returns, dates) := state in
  let window_slice := pd.iloc_slice period_data i (i + window_days) in
  first_date <- pd.iloc_first (map timestamp window_slice) ;;
  last_date <- pd.iloc_last (map timestamp window_slice) ;;
  ret <- calculate_absolute_returns self first_date last_date ;;
  match ret with
  | Some r =>
      d <- pd.iloc_last (map timestamp window_slice) ;;
      Ok (rolling_returns ++ [r], dates ++ [d])
  | None => Ok (rolling_returns, dates)
  end.

Fixpoint for_each {S A : Type} (body : S -> A -> result S) (l : list A) (s : S)
  : result S :=
  match l with
  | [] => Ok s
  | x :: l' => s' <- body s x ;; for_each body l' s'
  end.

Definition calculate_rolling_returns (self : FundAnalyzer) (window_months : Z)
  (end_date : option Timestamp) : result Series :=
  let end_date := default_end_date self end_date in
  let window_days := window_months * 30 in
  let start_date := pd.minus_days end_date window_days in
  let period_data := between (df self) start_date end_date in
  '(rolling_returns, dates) <-
     for_each (rolling_step self period_data window_days)
              (Py.range (Z.of_nat (length period_data) - window_days + 1))
              ([], []) ;;
  Ok {| values := rolling_returns; index := dates |}.

Definition calculate_sharpe_ratio (self : FundAnalyzer) (window_years : Z)
  (end_date : option Timestamp) : option float :=
  let end_date := default_end_date self end_date in
  let start_date := pd.minus_days end_date (window_years * 365) in
  let period_data := between (df self) start_date end_date in
  if Z.of_nat (length period_data) <? 252 then None
  else
    let excess_returns :=
      map (fun r => (daily_returns r - risk_free_rate self / 252)%float)
          period_data in
    Some (PrimFloat.sqrt 252 * (pd.mean excess_returns / pd.std excess_returns))%float.

Section Power.

(** [x ** y] on two floats. *)
Variable float_pow : float -> float -> float.

Definition calculate_cagr (self : FundAnalyzer) (years : Z)
  (end_date : option Timestamp) : result (option float) :=
  let end_date := default_end_date self end_date in
  let start_date := pd.minus_days end_date (years * 365) in
  let period_data := between (df self) start_date end_date in
  if Z.of_nat (length period_data) <? 2 then Ok None
  else
    initial_value <- pd.iloc_first (map nav period_data) ;;
    final_value <- pd.iloc_last (map nav period_data) ;;
    exponent <- (if years =? 0 then Raise ZeroDivisionError
                 else Ok (1 / float_of_Z years)%float) ;;
    Ok (Some ((float_pow (final_value / initial_value) exponent - 1) * 100)%float).

(** [xnpv(rate)], the inner function of [calculate_xirr]. *)
Definition xnpv (cashflows : list float) (dates : list Timestamp) (rate : float)
  : result float :=
  terms <- mapM (fun '(cf, d) =>
                   d0 <- Py.item0 dates ;;
                   Ok (cf / float_pow (1 + rate)
                                      (float_of_Z (pd.days (d - d0)) / 365.0))%float)
                (combine cashflows dates) ;;
  Ok (Py.sum terms).

(** One element of the list summed in the denominator of the Newton step:
    [-cf*d/(1+rate)**(d+1)], where [d] is an element of [dates]. *)
Definition slope_term (rate : float) (cf : float) (d : Timestamp) : result object :=
  numerator <- Py.mul (PyFloat (- cf)%float) (PyTimestamp d) ;;
  exponent <- Py.add (PyTimestamp d) (PyInt 1) ;;
  denominator <- Py.arith float_pow (PyFloat (1 + rate)%float) exponent ;;
  Py.truediv numerator denominator.

(** [rate - xnpv(rate)/sum([...])]. *)
Definition newton_step (cashflows : list float) (dates : list Timestamp)
  (rate : float) : result float :=
  npv <- xnpv cashflows dates rate ;;
  terms <- mapM (fun '(cf, d) => slope_term rate cf d) (combine cashflows dates) ;;
  slope <- Py.sum_objects terms ;;
  quotient <- Py.truediv (PyFloat npv) slope ;;
  new_rate <- Py.sub (PyFloat rate) quotient ;;
  Py.float_value new_rate.

(** [for _ in range(n): ...] of Newton's method, then [return None]. *)
Fixpoint newton_loop (n : nat) (cashflows : list float) (dates : list Timestamp)
  (rate : float) : result (option float) :=
  match n with
  | O => Ok None
  | S n' =>
      new_rate <- newton_step cashflows dates rate ;;
      if (PrimFloat.abs (new_rate - rate) <? 0.0001)%float
      then Ok (Some (new_rate * 100)%float)
      else newton_loop n' cashflows dates new_rate
  end.

Definition calculate_xirr (self : FundAnalyzer) (start_date end_date : Timestamp)
  (additional_flows : list (Timestamp * float)) : result (option float) :=
  let period_data := between (df self) (Some start_date) (Some end_date) in
  if Z.of_nat (length period_data) <? 2 then Ok None
  else
    first_nav <- pd.iloc_first (map nav period_data) ;;
    first_date <- pd.iloc_first (map timestamp period_data) ;;
    let cashflows := [(- first_nav)%float] in
    let dates := [first_date] in
    let cashflows := cashflows ++ map snd additional_flows in
    let dates := dates ++ map fst additional_flows in
    last_nav <- pd.iloc_last (map nav period_data) ;;
    last_date <- pd.iloc_last (map timestamp period_data) ;;
    let cashflows := cashflows ++ [last_nav] in
    let dates := dates ++ [last_date] in
    newton_loop 100 cashflows dates 0.1%float.

End Power.

(** The three tiers of a metric, and the state [(score, reasons)] they
    update. *)
Definition award (state : Z * list string) (points : Z) (reason : string)
  : Z * list string :=
  (fst state + points, snd state ++ [reason]).

Definition note (state : Z * list string) (reason : string) : Z * list string :=
  (fst state, snd state ++ [reason]).

Definition get_investment_recommendation (metrics : Metrics) : result Recommendation :=
  let state := (0, []) in
  (* Sharpe Ratio analysis *)
  state <- (c1 <- Py.gt (sharpe_ratio metrics) (PyFloat 1.5) ;;
            if c1 then Ok (award state 3 "Excellent risk-adjusted returns"%string)
            else
              c2 <- Py.gt (sharpe_ratio metrics) (PyInt 1) ;;
              if c2 then Ok (award state 2 "Good risk-adjusted returns"%string)
              else
                c3 <- Py.gt (sharpe_ratio metrics) (PyFloat 0.5) ;;
                if c3 then Ok (award state 1 "Moderate risk-adjusted returns"%string)
                else Ok (note state "Poor risk-adjusted returns"%string)) ;;
  (* CAGR analysis *)
  state <- (c1 <- Py.gt (cagr metrics) (PyInt 15) ;;
            if c1 then Ok (award state 3 "Strong consistent growth"%string)
            else
              c2 <- Py.gt (cagr metrics) (PyInt 10) ;;
              if c2 then Ok (award state 2 "Good consistent growth"%string)
              else
                c3 <- Py.gt (cagr metrics) (PyInt 7) ;;
                if c3 then Ok (award state 1 "Moderate growth"%string)
                else Ok (note state "Weak growth"%string)) ;;
  (* Rolling Returns analysis *)
  state <- (c1 <- Py.gt (rolling_returns metrics) (PyInt 12) ;;
            if c1 then Ok (award state 2 "Strong periodic performance"%string)
            else
              c2 <- Py.gt (rolling_returns metrics) (PyInt 8) ;;
              if c2 then Ok (award state 1 "Decent periodic performance"%string)
              else Ok (note state "Inconsistent performance"%string)) ;;
  (* XIRR analysis *)
  state <- (c1 <- Py.gt (xirr metrics) (cagr metrics) ;;
            if c1 then Ok (award state 1 "Beneficial investment timing"%string)
            else Ok state) ;;
  let '(score, reasons) := state in
  (* Generate recommendation *)
  if 7 <=? score then
    Ok {| recommendation := "BUY MORE UNITS";
          score := score;
          reasons := reasons;
          action_items := ["Consider increasing allocation";
                           "Look for dips to add units";
                           "Maintain SIP if applicable"]%string |}
  else if 4 <=? score then
    Ok {| recommendation := "CONTINUE HOLDING";
          score := score;
          reasons := reasons;
          action_items := ["Monitor performance closely";
                           "Maintain current investment";
                           "Review in 3 months"]%string |}
  else
    Ok {| recommendation := "EXIT FUND";
          score := score;
          reasons := reasons;
          action_items := ["Look for better alternatives";
                           "Plan systematic withdrawal";
                           "Consider tax implications before exit"]%string |}.

(* ================================================================== *)
(** ** The route [/analyze] *)
(* ================================================================== *)

(** The JSON body of the request. *)
Record Request : Type := {
  startDate : Timestamp;
  endDate : Timestamp;
  rollingWindow : Z;
  cagrPeriod : Z;
  sharpePeriod : Z;
  additionalFlows : list (Timestamp * float)
}.

(** [periods = [1, 3, 6, 12, 36, 60]]. *)
Definition periods : list Z := [1; 3; 6; 12; 36; 60].

(** The value of the key ['rolling_returns'] of [metrics]:
    [calculate_rolling_returns(window_months=...).mean()]. *)
Definition rolling_returns_metric (self : FundAnalyzer) (window_months : Z)
  : result object :=
  series <- calculate_rolling_returns self window_months None ;;
  Ok (PyFloat (pd.mean (values series))).

Record Response : Type := {
  historical_data : list (string * History);
  metrics : Metrics;
  recommendation_result : Recommendation
}.

Definition analyze (float_pow : float -> float -> float)
  (fund_data : list Observation) (fetched : option float) (data : Request)
  : result Response :=
  analyzer <- __init__ fund_data fetched ;;
  let historical_data := get_historical_data analyzer periods in
  m_abs <- calculate_absolute_returns analyzer (startDate data) (endDate data) ;;
  m_roll <- rolling_returns_metric analyzer (rollingWindow data) ;;
  m_cagr <- calculate_cagr float_pow analyzer (cagrPeriod data) None ;;
  m_xirr <- calculate_xirr float_pow analyzer (startDate data) (endDate data)
                           (additionalFlows data) ;;
  let m_sharpe := calculate_sharpe_ratio analyzer (sharpePeriod data) None in
  let metrics := {| absolute_returns := Py.of_option m_abs;
                    rolling_returns := m_roll;
                    cagr := Py.of_option m_cagr;
                    xirr := Py.of_option m_xirr;
                    sharpe_ratio := Py.of_option m_sharpe |} in
  recommendation <- get_investment_recommendation metrics ;;
  Ok {| historical_data := historical_data;
        metrics := metrics;
        recommendation_result := recommendation |}.

(* ================================================================== *)
(** ** Notions the properties are stated with *)
(* ================================================================== *)

(** A valid NAV is a positive number (so it is not NaN). *)
Definition valid_nav (x : float) : bool := (0 <? x)%float.

Definition valid_series (raw : list Observation) : Prop :=
  Forall (fun o => valid_nav (obs_nav o) = true) raw.

(** The observation a row of the frame stands for. *)
Definition row_obs (r : Row) : Observation :=
  {| obs_timestamp := timestamp r; obs_nav := nav r |}.

(** The test of the selection [start <= timestamp <= end]. *)
Definition in_range (start_date end_date t : Timestamp) : bool :=
  (start_date <=? t) && (t <=? end_date).

(** Two observations a year apart: a NAV of [100], then of [110]. *)
Definition two_points : list Observation :=
  [ {| obs_timestamp := 0; obs_nav := 100 |};
    {| obs_timestamp := pd.Timedelta 365; obs_nav := 110 |} ].

(** Two observations that carry the same timestamp. *)
Definition same_instant : list Observation :=
  [ {| obs_timestamp := 5; obs_nav := 100 |};
    {| obs_timestamp := 5; obs_nav := 101 |} ].

(** [n] daily observations of a NAV that stays at [100]. *)
Definition flat_series (n : nat) : list Observation :=
  map (fun i => {| obs_timestamp := pd.Timedelta (Z.of_nat i); obs_nav := 100 |})
      (seq 0 n).

(** The points table of the recommendation engine, as the specification
    tabulates it. *)
Definition sharpe_points (sharpe : float) : Z :=
  if (1.5 <? sharpe)%float then 3
  else if (1 <? sharpe)%float then 2
  else if (0.5 <? sharpe)%float then 1
  else 0.

Definition cagr_points (growth : float) : Z :=
  if (15 <? growth)%float then 3
  else if (10 <? growth)%float then 2
  else if (7 <? growth)%float then 1
  else 0.

Definition rolling_points (rolling : float) : Z :=
  if (12 <? rolling)%float then 2
  else if (8 <? rolling)%float then 1
  else 0.

Definition timing_points (rate growth : float) : Z :=
  if (growth <? rate)%float then 1 else 0.

(** The three recommendations of the specification and the label the code
    gives each. *)
Inductive Advice : Type := BUY_MORE | HOLD | EXIT.

Definition advice_of_score (points : Z) : Advice :=
  if 7 <=? points then BUY_MORE
  else if 4 <=? points then HOLD
  else EXIT.

Definition advice_label (a : Advice) : string :=
  match a with
  | BUY_MORE => "BUY MORE UNITS"
  | HOLD => "CONTINUE HOLDING"
  | EXIT => "EXIT FUND"
  end.

(** Every reason text of the table. *)
Definition table_reasons : list string :=
  [ "Excellent risk-adjusted returns"; "Good risk-adjusted returns";
    "Moderate risk-adjusted returns"; "Poor risk-adjusted returns";
    "Strong consistent growth"; "Good consistent growth";
    "Moderate growth"; "Weak growth";
    "Strong periodic performance"; "Decent periodic performance";
    "Inconsistent performance"; "Beneficial investment timing" ]%string.

(** A metrics bundle whose four scored metrics are numbers. *)
Definition numeric_bundle (absolute : object) (sharpe growth rolling rate : float)
  : Metrics :=
  {| absolute_returns := absolute;
     rolling_returns := PyFloat rolling;
     cagr := PyFloat growth;
     xirr := PyFloat rate;
     sharpe_ratio := PyFloat sharpe |}.

(** The rows of the [months]-month window that ends at [latest]: those no
    older than [months * 30] days. *)
Definition window_rows (frame : DataFrame) (latest : Timestamp) (months : Z)
  : DataFrame :=
  filter (fun r => latest - pd.Timedelta (months * 30) <=? timestamp r) frame.

Definition window_history (frame : DataFrame) (latest : Timestamp) (months : Z)
  : History :=
  {| h_dates := map timestamp (window_rows frame latest months);
     h_values := map nav (window_rows frame latest months) |}.

(** The rows [calculate_sharpe_ratio] selects and the excess returns it
    derives from them. *)
Definition sharpe_window (self : FundAnalyzer) (window_years : Z)
  (end_date : option Timestamp) : DataFrame :=
  let last_date := default_end_date self end_date in
  between (df self) (pd.minus_days last_date (window_years * 365)) last_date.

Definition excess_of (self : FundAnalyzer) (window : DataFrame) : list float :=
  map (fun r => (daily_returns r - risk_free_rate self / 252)%float) window.

(** The rows [calculate_rolling_returns] selects. *)
Definition rolling_window (self : FundAnalyzer) (window_months : Z)
  (end_date : option Timestamp) : DataFrame :=
  let last_date := default_end_date self end_date in
  between (df self) (pd.minus_days last_date (window_months * 30)) last_date.


(** The rows [calculate_cagr] selects. *)
Definition cagr_window (self : FundAnalyzer) (years : Z)
  (end_date : option Timestamp) : DataFrame :=
  let last_date := default_end_date self end_date in
  between (df self) (pd.minus_days last_date (years * 365)) last_date.

(** The entry [get_historical_data] computes for one period. *)
Definition history_of (self : FundAnalyzer) (months : Z) : History :=
  period_history self (pd.max (map timestamp (df self))) months.

(* ================================================================== *)
(** ** The frame built by [_preprocess_data] *)
(* ================================================================== *)

Section Sorting.

Context {A : Type} (key : A -> Z).

Let by_key (a b : A) : Prop := key a <= key b.

Lemma insert_row_perm (x : A) (l : list A) :
  Permutation (x :: l) (pd.insert_row key x l).
Proof.
  induction l as [|y l IH]; simpl; [apply Permutation_refl|].
  destruct (key x <=? key y); [apply Permutation_refl|].
  eapply perm_trans; [apply perm_swap|]. now apply perm_skip.
Qed.

Lemma sort_values_perm (l : list A) : Permutation l (pd.sort_values key l).
Proof.
  induction l as [|x l IH]; simpl; [constructor|].
  eapply perm_trans; [apply perm_skip, IH|apply insert_row_perm].
Qed.

Lemma insert_row_sorted (x : A) (l : list A) :
  StronglySorted by_key l -> StronglySorted by_key (pd.insert_row key x l).
Proof.
  induction 1 as [|y l Hs IH Hy]; simpl.
  - repeat constructor.
  - destruct (key x <=? key y) eqn:E.
    + apply Z.leb_le in E. constructor; [constructor; assumption|].
      constructor; [exact E|].
      eapply Forall_impl; [|exact Hy]. unfold by_key. intros; lia.
    + apply Z.leb_gt in E. constructor; [exact IH|].
      eapply Permutation_Forall; [apply insert_row_perm|].
      constructor; [unfold by_key; lia|exact Hy].
Qed.

Lemma sort_values_sorted (l : list A) :
  StronglySorted by_key (pd.sort_values key l).
Proof.
  induction l as [|x l IH]; simpl; [constructor|now apply insert_row_sorted].
Qed.

Lemma sort_values_length (l : list A) : length (pd.sort_values key l) = length l.
Proof. symmetry. apply Permutation_length, sort_values_perm. Qed.


End Sorting.

Lemma strongly_sorted_map {A : Type} (key : A -> Z) (l : list A) :
  StronglySorted (fun a b => key a <= key b) l ->
  StronglySorted Z.le (map key l).
Proof.
  induction 1 as [|x l Hs IH Hx]; simpl; constructor; auto.
  apply Forall_map. exact Hx.
Qed.

Lemma pct_change_from_length (l : list float) (prev : float) :
  length (pd.pct_change_from prev l) = length l.
Proof. revert prev; induction l; simpl; intros; auto. Qed.

Lemma pct_change_length (l : list float) : length (pd.pct_change l) = length l.
Proof. destruct l; simpl; [|rewrite pct_change_from_length]; reflexivity. Qed.

Lemma pct_change_from_nth (l : list float) :
  forall (prev : float) (i : nat) (x p : float),
    nth_error (prev :: l) (S i) = Some x ->
    nth_error (prev :: l) i = Some p ->
    nth_error (pd.pct_change_from prev l) i = Some (x / p - 1)%float.
Proof.
  induction l as [|y l IH]; intros prev i x p Hx Hp.
  - destruct i; discriminate.
  - destruct i as [|i]; simpl in *.
    + congruence.
    + now apply IH.
Qed.

Lemma combine_columns {A B C : Type} (f : A -> C) (g : A * B -> C)
  (a : list A) (b : list B) :
  length a = length b -> (forall x y, g (x, y) = f x) ->
  map g (combine a b) = map f a.
Proof.
  intros Hlen Hg. revert b Hlen.
  induction a as [|x a IH]; intros [|y b] Hlen; simpl in *; try discriminate; auto.
  rewrite Hg, IH; auto.
Qed.

Lemma combine_column_r {A B C : Type} (f : B -> C) (g : A * B -> C)
  (a : list A) (b : list B) :
  length a = length b -> (forall x y, g (x, y) = f y) ->
  map g (combine a b) = map f b.
Proof.
  intros Hlen Hg. revert b Hlen.
  induction a as [|x a IH]; intros [|y b] Hlen; simpl in *; try discriminate; auto.
  rewrite Hg, IH; auto.
Qed.

Lemma preprocess_shape (raw : list Observation) :
  let sorted := pd.sort_values obs_timestamp raw in
  length sorted = length (pd.pct_change (map obs_nav sorted)).
Proof. simpl. now rewrite pct_change_length, length_map. Qed.

Lemma preprocess_timestamps (raw : list Observation) :
  map timestamp (_preprocess_data raw) =
  map obs_timestamp (pd.sort_values obs_timestamp raw).
Proof.
  unfold _preprocess_data. rewrite map_map.
  apply combine_columns; [apply preprocess_shape|reflexivity].
Qed.

Lemma preprocess_navs (raw : list Observation) :
  map nav (_preprocess_data raw) =
  map obs_nav (pd.sort_values obs_timestamp raw).
Proof.
  unfold _preprocess_data. rewrite map_map.
  apply combine_columns; [apply preprocess_shape|reflexivity].
Qed.

Lemma preprocess_daily_returns (raw : list Observation) :
  map daily_returns (_preprocess_data raw) =
  pd.pct_change (map nav (_preprocess_data raw)).
Proof.
  rewrite preprocess_navs. unfold _preprocess_data. rewrite map_map.
  rewrite <- (map_id (pd.pct_change _)) at 2.
  apply combine_column_r; [apply preprocess_shape|reflexivity].
Qed.

Lemma preprocess_observations (raw : list Observation) :
  map row_obs (_preprocess_data raw) = pd.sort_values obs_timestamp raw.
Proof.
  unfold _preprocess_data. rewrite map_map.
  rewrite (combine_columns (fun o => o)).
  - apply map_id.
  - apply preprocess_shape.
  - intros [t v] y. reflexivity.
Qed.

Lemma preprocess_length (raw : list Observation) :
  length (_preprocess_data raw) = length raw.
Proof.
  rewrite <- (length_map timestamp), preprocess_timestamps, length_map.
  apply sort_values_length.
Qed.

Lemma preprocess_ascending (raw : list Observation) :
  StronglySorted Z.le (map timestamp (_preprocess_data raw)).
Proof.
  rewrite preprocess_timestamps.
  apply strongly_sorted_map, sort_values_sorted.
Qed.

Lemma ascending_distinct_strict (l : list Z) :
  StronglySorted Z.le l -> NoDup l -> StronglySorted Z.lt l.
Proof.
  induction 1 as [|x l Hs IH Hx]; intros Hnd; constructor.
  - apply IH. now inversion Hnd.
  - inversion Hnd as [|? ? Hnot _]; subst.
    rewrite Forall_forall in *. intros y Hy.
    specialize (Hx y Hy).
    assert (x <> y) by (intros ->; contradiction). lia.
Qed.

(** C5, as the code has it: the column [daily_returns] of a valid NAV series
    has one cell per observation (not one fewer); its cell 0 is NaN, pandas'
    missing value, and every later cell [i] is [nav[i] / nav[i-1] - 1],
    computed by exactly that float expression. *)
Theorem daily_returns_column (raw : list Observation) :
  valid_series raw ->
  let frame := _preprocess_data raw in
  length (map daily_returns frame) = length raw /\
  (raw <> [] -> nth_error (map daily_returns frame) 0 = Some nan) /\
  (forall (i : nat) (x p : float),
      nth_error (map nav frame) (S i) = Some x ->
      nth_error (map nav frame) i = Some p ->
      nth_error (map daily_returns frame) (S i) = Some (x / p - 1)%float).
Proof.
  intros _ frame. subst frame. split; [|split].
  - now rewrite length_map, preprocess_length.
  - intros Hne. rewrite preprocess_daily_returns.
    pose proof (preprocess_length raw) as Hlen.
    rewrite <- (length_map nav) in Hlen.
    destruct (map nav (_preprocess_data raw)); [|reflexivity].
    destruct raw; [contradiction|discriminate].
  - intros i x p Hx Hp. rewrite preprocess_daily_returns.
    destruct (map nav (_preprocess_data raw)) as [|x0 l]; [discriminate|].
    simpl. now apply pct_change_from_nth.
Qed.

(** [daily_returns_column] at the two observations [100], [110]. *)
Lemma daily_returns_column_witness :
  valid_series two_points /\
  length (map daily_returns (_preprocess_data two_points)) = length two_points.
Proof.
  assert (H : valid_series two_points) by (repeat constructor).
  split; [exact H|].
  exact (proj1 (daily_returns_column two_points H)).
Defined.

(** C5, refuted as stated: for the two observations [100], [110] the column
    has two cells, not one, and a cell exists at index 0. *)
Lemma daily_returns_not_one_shorter :
  length (map daily_returns (_preprocess_data two_points))
    <> (length two_points - 1)%nat
  /\ nth_error (map daily_returns (_preprocess_data two_points)) 0 = Some nan.
Proof. split; [vm_compute; discriminate|reflexivity]. Qed.

(** C9, as the code has it: the frame is the input sorted by timestamp in
    ascending order; nothing is dropped, so observations that share a
    timestamp all stay, adjacent timestamps never decrease, and they increase
    strictly when the input timestamps are pairwise distinct. *)
Theorem preprocess_sorts_and_keeps_all (raw : list Observation) :
  let frame := _preprocess_data raw in
  StronglySorted Z.le (map timestamp frame) /\
  Permutation raw (map row_obs frame) /\
  (NoDup (map obs_timestamp raw) -> StronglySorted Z.lt (map timestamp frame)).
Proof.
  intros frame. subst frame. split; [apply preprocess_ascending|split].
  - rewrite preprocess_observations. apply sort_values_perm.
  - intros Hnd. apply ascending_distinct_strict; [apply preprocess_ascending|].
    rewrite preprocess_timestamps.
    eapply Permutation_NoDup; [|exact Hnd].
    apply Permutation_map, sort_values_perm.
Qed.

(** C9, refuted as stated: two observations with the same timestamp are both
    in the frame, so its timestamps do not increase strictly. *)
Lemma duplicates_are_kept :
  map (fun r => (timestamp r, nav r)) (_preprocess_data same_instant)
    = [(5, 100%float); (5, 101%float)]
  /\ ~ StronglySorted Z.lt (map timestamp (_preprocess_data same_instant)).
Proof.
  split; [reflexivity|].
  intros H. change (StronglySorted Z.lt [5; 5]) in H.
  inversion H as [|? ? _ Hall]; subst.
  inversion Hall as [|? ? Hlt _]; subst. lia.
Qed.

(* ================================================================== *)
(** ** Selections of the sorted frame *)
(* ================================================================== *)

Section Selection.

Context {A : Type} (key : A -> Z) (p : A -> bool).





End Selection.



Lemma iloc_last_app {A : Type} (l : list A) (x : A) :
  pd.iloc_last (l ++ [x]) = Ok x.
Proof. unfold pd.iloc_last. now rewrite rev_unit. Qed.


(** The return from [100] to [110] is 10 percent, and a range that holds
    one observation has none. *)
Example absolute_return_two_points :
  calculate_absolute_returns (new_analyzer two_points None) 0 (pd.Timedelta 365)
    = Ok (Some 10%float) /\
  calculate_absolute_returns (new_analyzer two_points None) 1 (pd.Timedelta 365)
    = Ok None.
Proof. split; reflexivity. Qed.


(* ================================================================== *)
(** ** IEEE facts the comparisons rely on *)
(* ================================================================== *)

Lemma SFcompare_lt_flip (a b : spec_float) :
  SFcompare a b = Some Lt -> SFcompare b a = Some Gt.
Proof.
  destruct a as [sa|sa| |sa ma ea], b as [sb|sb| |sb mb eb]; simpl;
    try discriminate;
    try (destruct sa; discriminate); try (destruct sb; discriminate);
    try (destruct sa, sb; (discriminate || reflexivity)).
  assert (Hm : Pos.compare_cont Eq mb ma = CompOpp (Pos.compare_cont Eq ma mb))
    by (rewrite Pos.compare_cont_antisym; reflexivity).
  destruct sa, sb; try discriminate; try reflexivity;
    rewrite (Z.compare_antisym ea eb), Hm;
    destruct (ea ?= eb); simpl;
    destruct (Pos.compare_cont Eq ma mb); simpl; congruence.
Qed.

(** [x < y] excludes [y < x]. *)
Lemma float_lt_asym (x y : float) :
  (x <? y)%float = true -> (y <? x)%float = false.
Proof.
  rewrite !FloatAxioms.ltb_spec. unfold SFltb. intros H.
  destruct (SFcompare (Prim2SF x) (Prim2SF y)) as [[| |]|] eqn:E; try discriminate.
  now rewrite (SFcompare_lt_flip _ _ E).
Qed.

(* ================================================================== *)
(** ** The recommendation engine *)
(* ================================================================== *)

Ltac in_table := simpl; repeat (first [left; reflexivity | right]).

Ltac split_tiers s c r x :=
  destruct (1.5 <? s)%float; [|destruct (1 <? s)%float; [|destruct (0.5 <? s)%float]];
  (destruct (15 <? c)%float; [|destruct (10 <? c)%float; [|destruct (7 <? c)%float]]);
  (destruct (12 <? r)%float eqn:R12; [|destruct (8 <? r)%float eqn:R8]);
  destruct (c <? x)%float.

(** On numbers the engine always answers, and what it answers follows the
    table. *)
Lemma recommendation_on_numbers (a : object) (s c r x : float) :
  exists res : Recommendation,
    get_investment_recommendation (numeric_bundle a s c r x) = Ok res /\
    score res =
      sharpe_points s + cagr_points c + rolling_points r + timing_points x c /\
    recommendation res = advice_label (advice_of_score (score res)) /\
    Forall (fun reason => In reason table_reasons) (reasons res) /\
    ((12 <? r)%float = false -> (8 <? r)%float = false ->
     In "Inconsistent performance"%string (reasons res)).
Proof.
  unfold get_investment_recommendation, numeric_bundle, Py.gt, Py.as_float,
    sharpe_points, cagr_points, rolling_points, timing_points.
  cbn [sharpe_ratio cagr rolling_returns xirr].
  change (float_of_Z 1) with 1%float. change (float_of_Z 15) with 15%float.
  change (float_of_Z 10) with 10%float. change (float_of_Z 7) with 7%float.
  change (float_of_Z 12) with 12%float. change (float_of_Z 8) with 8%float.
  split_tiers s c r x; cbn;
    (eexists; split; [reflexivity|]);
    (split; [reflexivity|]); (split; [reflexivity|]);
    (split; [repeat (apply Forall_cons; [in_table|]); apply Forall_nil
            |intros H12 H8; try discriminate; in_table]).
Qed.

(** C7: on a fully available bundle the score is the sum of the tabulated
    points, and the recommendation is BUY_MORE from 7 points, HOLD from 4 to
    6, EXIT below 4; the bundle [(1.6, 16, 13, 20)] scores 9 and gives
    BUY_MORE, and [(0.3, 5, 3, xirr)] with [xirr < cagr] scores 0 and gives
    EXIT. *)
Theorem recommendation_follows_table (a : object) (s c r x : float) :
  (exists res : Recommendation,
      get_investment_recommendation (numeric_bundle a s c r x) = Ok res /\
      score res =
        sharpe_points s + cagr_points c + rolling_points r + timing_points x c /\
      recommendation res = advice_label (advice_of_score (score res))) /\
  (exists res : Recommendation,
      get_investment_recommendation (numeric_bundle a 1.6 16 13 20) = Ok res /\
      score res = 9 /\ recommendation res = advice_label BUY_MORE) /\
  (forall rate : float,
      (rate <? 5)%float = true ->
      exists res : Recommendation,
        get_investment_recommendation (numeric_bundle a 0.3 5 3 rate) = Ok res /\
        score res = 0 /\ recommendation res = advice_label EXIT).
Proof.
  split; [|split].
  - destruct (recommendation_on_numbers a s c r x) as (res & H1 & H2 & H3 & _).
    now exists res.
  - destruct (recommendation_on_numbers a 1.6 16 13 20) as (res & H1 & H2 & H3 & _).
    exists res. split; [exact H1|].
    assert (Hs : score res = 9) by (rewrite H2; reflexivity).
    split; [exact Hs|]. rewrite H3, Hs. reflexivity.
  - intros rate Hlt.
    destruct (recommendation_on_numbers a 0.3 5 3 rate) as (res & H1 & H2 & H3 & _).
    exists res. split; [exact H1|].
    assert (Hs : score res = 0).
    { rewrite H2. unfold timing_points. now rewrite (float_lt_asym _ _ Hlt). }
    split; [exact Hs|]. rewrite H3, Hs. reflexivity.
Qed.

(** C2, as the code has it: a bundle of numbers always gets a
    recommendation, and when [rolling_returns] is the NaN that [analyze]
    obtains from an empty set of windows it adds no point and the ordinary
    lowest-tier reason is recorded; every reason comes from the table, so no
    insufficient-data reason exists. *)
Theorem recommendation_with_nan_rolling (a : object) (s c x : float) :
  exists res : Recommendation,
    get_investment_recommendation (numeric_bundle a s c nan x) = Ok res /\
    score res = sharpe_points s + cagr_points c + timing_points x c /\
    In "Inconsistent performance"%string (reasons res) /\
    Forall (fun reason => In reason table_reasons) (reasons res).
Proof.
  destruct (recommendation_on_numbers a s c nan x) as (res & H1 & H2 & _ & H4 & H5).
  exists res. split; [exact H1|]. split; [|split; [|exact H4]].
  - rewrite H2. change (rolling_points nan) with 0. lia.
  - apply H5; reflexivity.
Qed.

(** C2, refuted as stated: a bundle that carries [None] for the Sharpe
    ratio, the CAGR, the rolling return or the XIRR gets no recommendation;
    the first comparison that meets the [None] raises [TypeError]. *)
Lemma recommendation_raises_on_none :
  get_investment_recommendation
    {| absolute_returns := PyFloat 10; rolling_returns := PyFloat 13;
       cagr := PyFloat 16; xirr := PyFloat 20; sharpe_ratio := PyNone |}
    = Raise TypeError /\
  get_investment_recommendation
    {| absolute_returns := PyFloat 10; rolling_returns := PyFloat 13;
       cagr := PyNone; xirr := PyFloat 20; sharpe_ratio := PyFloat 1.6 |}
    = Raise TypeError /\
  get_investment_recommendation
    {| absolute_returns := PyFloat 10; rolling_returns := PyNone;
       cagr := PyFloat 16; xirr := PyFloat 20; sharpe_ratio := PyFloat 1.6 |}
    = Raise TypeError /\
  get_investment_recommendation
    {| absolute_returns := PyFloat 10; rolling_returns := PyFloat 13;
       cagr := PyFloat 16; xirr := PyNone; sharpe_ratio := PyFloat 1.6 |}
    = Raise TypeError.
Proof. repeat split; reflexivity. Qed.

(* ================================================================== *)
(** ** Historical data *)
(* ================================================================== *)

Lemma string_length_append (s t : string) :
  String.length (s ++ t) = (String.length s + String.length t)%nat.
Proof. induction s as [|c s IH]; simpl; [reflexivity|now rewrite IH]. Qed.

Lemma append_same_tail (t s1 s2 : string) :
  (s1 ++ t)%string = (s2 ++ t)%string -> s1 = s2.
Proof.
  revert s2. induction s1 as [|c s1 IH]; intros [|d s2] H; simpl in H.
  - reflexivity.
  - apply (f_equal String.length) in H. simpl in H.
    rewrite string_length_append in H. lia.
  - apply (f_equal String.length) in H. simpl in H.
    rewrite string_length_append in H. lia.
  - injection H as -> H. f_equal. now apply IH.
Qed.

Lemma to_int_not_nil (n : Z) :
  Z.to_int n <> Decimal.Pos Decimal.Nil /\ Z.to_int n <> Decimal.Neg Decimal.Nil.
Proof.
  split; intros H; pose proof (DecimalZ.of_to n) as Hn; rewrite H in Hn;
    simpl in Hn; subst n; discriminate H.
Qed.

Lemma str_inj (p q : Z) : Py.str p = Py.str q -> p = q.
Proof.
  unfold Py.str. intros H.
  apply (f_equal NilZero.int_of_string) in H.
  destruct (to_int_not_nil p), (to_int_not_nil q).
  rewrite !NilZero.isi in H by assumption.
  injection H as H. now apply DecimalZ.to_int_inj.
Qed.

(** Distinct periods get distinct keys. *)
Lemma month_key_inj (p q : Z) : month_key p = month_key q -> p = q.
Proof. unfold month_key. intros H. now apply append_same_tail, str_inj in H. Qed.

Lemma dict_get_set {V : Type} (d : list (string * V)) (k k' : string) (v : V) :
  dict_get (dict_set d k v) k' =
  if String.eqb k k' then Some v else dict_get d k'.
Proof.
  induction d as [|[k0 v0] d IH]; simpl.
  - reflexivity.
  - destruct (String.eqb_spec k0 k) as [->|Hne]; simpl.
    + now destruct (String.eqb k k').
    + rewrite IH. destruct (String.eqb_spec k0 k') as [->|Hne'].
      * destruct (String.eqb_spec k k'); [congruence|reflexivity].
      * reflexivity.
Qed.

Section Assignments.

Context {V : Type} (value : Z -> V).

Let assign (d : list (string * V)) (p : Z) := dict_set d (month_key p) (value p).

Lemma assigned_stays (p : Z) (todo : list Z) :
  forall d, dict_get d (month_key p) = Some (value p) ->
            dict_get (fold_left assign todo d) (month_key p) = Some (value p).
Proof.
  induction todo as [|q todo IH]; intros d Hd; simpl; [exact Hd|].
  apply IH. unfold assign. rewrite dict_get_set.
  destruct (String.eqb_spec (month_key q) (month_key p)) as [E|_]; [|exact Hd].
  apply month_key_inj in E. now subst.
Qed.

Lemma assigned_found (p : Z) (todo : list Z) :
  In p todo ->
  forall d, dict_get (fold_left assign todo d) (month_key p) = Some (value p).
Proof.
  induction todo as [|q todo IH]; intros Hin d; [contradiction|].
  simpl. destruct Hin as [->|Hin]; [|now apply IH].
  apply assigned_stays. unfold assign. rewrite dict_get_set.
  now rewrite String.eqb_refl.
Qed.

(** The dict built from the fixed period list. *)
Lemma assigned_periods :
  fold_left assign periods [] =
  [ ("1_month", value 1); ("3_month", value 3); ("6_month", value 6);
    ("12_month", value 12); ("36_month", value 36);
    ("60_month", value 60) ]%string.
Proof. reflexivity. Qed.

End Assignments.

Lemma fold_max_bounds (l : list Z) :
  forall a, let m := fold_left Z.max l a in
            a <= m /\ Forall (fun t => t <= m) l /\ (m = a \/ In m l).
Proof.
  induction l as [|t l IH]; intros a; simpl.
  - split; [lia|]. split; [constructor|now left].
  - destruct (IH (Z.max a t)) as (H1 & H2 & H3).
    split; [lia|]. split; [constructor; [lia|exact H2]|].
    destruct H3 as [H3|H3]; [|now right; right].
    destruct (Z.max_spec a t) as [[_ E]|[_ E]]; rewrite E in H3;
      [right; left; congruence|left; congruence].
Qed.

(** [max()] of a non-empty column is one of its cells and bounds them all. *)
Lemma column_max_latest (l : list Timestamp) :
  l <> [] ->
  exists latest, pd.max l = Some latest /\ In latest l /\
                 Forall (fun t => t <= latest) l.
Proof.
  destruct l as [|a l]; [contradiction|]. intros _.
  destruct (fold_max_bounds l a) as (H1 & H2 & H3).
  exists (fold_left Z.max l a). split; [reflexivity|]. split.
  - destruct H3 as [->|H3]; [now left|now right].
  - constructor; assumption.
Qed.

(** The entry of a period, once the latest timestamp is known. *)
Lemma period_history_window (self : FundAnalyzer) (latest : Timestamp)
  (months : Z) :
  period_history self (Some latest) months =
  window_history (df self) latest months.
Proof. reflexivity. Qed.

(** C8: for a non-empty NAV series the historical data of the fixed period
    list has exactly the six entries keyed ["1_month"] to ["60_month"]; the
    entry of a period holds the observations of the last [months * 30] days
    up to the latest observation; its dates and its values have the same
    length. *)
Theorem historical_data_six_entries (raw : list Observation)
  (fetched : option float) :
  raw <> [] ->
  let self := new_analyzer raw fetched in
  exists latest : Timestamp,
    (In latest (map timestamp (df self)) /\
     Forall (fun t => t <= latest) (map timestamp (df self))) /\
    get_historical_data self periods =
      [ ("1_month", window_history (df self) latest 1);
        ("3_month", window_history (df self) latest 3);
        ("6_month", window_history (df self) latest 6);
        ("12_month", window_history (df self) latest 12);
        ("36_month", window_history (df self) latest 36);
        ("60_month", window_history (df self) latest 60) ]%string /\
    Forall (fun entry => length (h_dates (snd entry)) = length (h_values (snd entry)))
           (get_historical_data self periods).
Proof.
  intros Hne self.
  destruct (column_max_latest (map timestamp (df self))) as (latest & Hmax & Hin & Hall).
  { intros E. apply (f_equal (@length _)) in E.
    unfold self in E. simpl in E. rewrite length_map, preprocess_length in E.
    destruct raw; [contradiction|discriminate]. }
  exists latest. split; [split; assumption|].
  assert (Hdict : get_historical_data self periods =
                  [ ("1_month", window_history (df self) latest 1);
                    ("3_month", window_history (df self) latest 3);
                    ("6_month", window_history (df self) latest 6);
                    ("12_month", window_history (df self) latest 12);
                    ("36_month", window_history (df self) latest 36);
                    ("60_month", window_history (df self) latest 60) ]%string).
  { unfold get_historical_data. rewrite Hmax.
    exact (assigned_periods (period_history self (Some latest))). }
  split; [exact Hdict|].
  rewrite Hdict. repeat constructor; simpl; now rewrite !length_map.
Qed.

(** [historical_data_six_entries] at the two observations [100], [110]. *)
Lemma historical_data_six_entries_witness :
  two_points <> [] /\
  map fst (get_historical_data (new_analyzer two_points None) periods) =
  [ "1_month"; "3_month"; "6_month"; "12_month"; "36_month"; "60_month" ]%string.
Proof.
  assert (H : two_points <> []) by discriminate.
  split; [exact H|].
  destruct (historical_data_six_entries two_points None H) as (latest & _ & E & _).
  rewrite E. reflexivity.
Defined.

Lemma filter_all {A : Type} (p : A -> bool) (l : list A) :
  Forall (fun x => p x = true) l -> filter p l = l.
Proof. induction 1 as [|x l Hx _ IH]; simpl; [|rewrite Hx, IH]; reflexivity. Qed.

Lemma filter_none {A : Type} (p : A -> bool) (l : list A) :
  Forall (fun x => p x = false) l -> filter p l = [].
Proof. induction 1 as [|x l Hx _ IH]; simpl; [|rewrite Hx, IH]; reflexivity. Qed.

Lemma ascending_select (p : Row -> bool) (frame : DataFrame) :
  StronglySorted Z.le (map timestamp frame) ->
  StronglySorted Z.le (map timestamp (filter p frame)).
Proof.
  induction frame as [|r frame IH]; simpl; intros Hs; [constructor|].
  inversion Hs as [|? ? Hs' Hall]; subst.
  destruct (p r); simpl; [|now apply IH].
  constructor; [now apply IH|].
  rewrite Forall_forall in *. intros t Ht. apply Hall.
  apply in_map_iff in Ht as (r' & <- & Hr'). apply filter_In in Hr'.
  apply in_map. tauto.
Qed.




(* ================================================================== *)
(** ** The Sharpe ratio *)
(* ================================================================== *)







(* ================================================================== *)
(** ** Rolling returns *)
(* ================================================================== *)

(** C3, as the code has it: when the requested range holds fewer than
    [windowDays] observations, no window is evaluated: the series of window
    returns is empty, and the mean [analyze] takes of it is NaN; there is no
    separate unavailable marker. *)
Theorem rolling_returns_short_range (self : FundAnalyzer) (window_months : Z)
  (end_date : option Timestamp) :
  Z.of_nat (length (rolling_window self window_months end_date))
    < window_months * 30 ->
  calculate_rolling_returns self window_months end_date
    = Ok {| values := []; index := [] |} /\
  (end_date = None ->
   rolling_returns_metric self window_months = Ok (PyFloat nan)).
Proof.
  intros Hlen.
  assert (Hcode : calculate_rolling_returns self window_months end_date
                  = Ok {| values := []; index := [] |}).
  { unfold calculate_rolling_returns.
    change (between _ _ _) with (rolling_window self window_months end_date).
    unfold Py.range.
    replace (Z.to_nat _) with 0%nat by lia. reflexivity. }
  split; [exact Hcode|].
  intros ->. unfold rolling_returns_metric. rewrite Hcode. reflexivity.
Qed.

(** [rolling_returns_short_range] at a one-month window over the two
    observations [100], [110]. *)
Lemma rolling_returns_short_range_witness :
  Z.of_nat (length (rolling_window (new_analyzer two_points None) 1 None)) < 1 * 30 /\
  rolling_returns_metric (new_analyzer two_points None) 1 = Ok (PyFloat nan).
Proof.
  assert (H : Z.of_nat (length (rolling_window (new_analyzer two_points None) 1 None))
              < 1 * 30) by (vm_compute; reflexivity).
  split; [exact H|].
  exact (proj2 (rolling_returns_short_range _ 1 None H) eq_refl).
Defined.

(** C3, refuted as stated: with one observation in a 30-day range the
    result is the NaN of an empty mean, and with exactly 30 observations,
    still fewer than [windowDays + 1], it is a number. *)
Lemma rolling_mean_below_threshold :
  (length (rolling_window (new_analyzer two_points None) 1 None) = 1%nat /\
   rolling_returns_metric (new_analyzer two_points None) 1 = Ok (PyFloat nan)) /\
  (length (rolling_window (new_analyzer (flat_series 30) None) 1 None) = 30%nat /\
   rolling_returns_metric (new_analyzer (flat_series 30) None) 1 = Ok (PyFloat 0)).
Proof. repeat split; vm_compute; reflexivity. Qed.

(* ================================================================== *)
(** ** XIRR *)
(* ================================================================== *)

Lemma iloc_last_cons {A : Type} (x : A) (l : list A) :
  exists y, pd.iloc_last (x :: l) = Ok y.
Proof.
  unfold pd.iloc_last. destruct (rev (x :: l)) as [|y l'] eqn:E; [|eauto].
  apply (f_equal (@length _)) in E. rewrite length_rev in E. discriminate.
Qed.

Lemma mapM_total {A B : Type} (f : A -> result B) (l : list A) :
  (forall x, exists y, f x = Ok y) -> exists ys, mapM f l = Ok ys.
Proof.
  intros Hf. induction l as [|x l [ys IH]]; simpl; [eauto|].
  destruct (Hf x) as [y ->]. simpl. rewrite IH. simpl. eauto.
Qed.

Section Newton.

Variable float_pow : float -> float -> float.

Lemma xnpv_returns (cashflows : list float) (dates : list Timestamp)
  (rate : float) (d0 : Timestamp) (rest : list Timestamp) :
  dates = d0 :: rest ->
  exists npv, xnpv float_pow cashflows dates rate = Ok npv.
Proof.
  intros ->. unfold xnpv.
  match goal with
  | |- context [mapM ?f ?l] => destruct (mapM_total f l) as [terms ->]
  end; [|simpl; eauto].
  intros [cf d]. simpl. eauto.
Qed.

(** The first element of the slope list cannot be computed: it multiplies a
    cash flow by a [Timestamp]. *)
Lemma slope_term_raises (rate cf : float) (d : Timestamp) :
  slope_term float_pow rate cf d = Raise TypeError.
Proof. reflexivity. Qed.

Lemma newton_step_raises (cashflows : list float) (dates : list Timestamp)
  (rate cf : float) (d0 : Timestamp) (flows : list float) (rest : list Timestamp) :
  cashflows = cf :: flows -> dates = d0 :: rest ->
  newton_step float_pow cashflows dates rate = Raise TypeError.
Proof.
  intros Hc Hd. unfold newton_step.
  destruct (xnpv_returns cashflows dates rate d0 rest Hd) as [npv ->].
  subst. reflexivity.
Qed.

Lemma newton_loop_raises (n : nat) (cashflows : list float)
  (dates : list Timestamp) (rate cf : float) (d0 : Timestamp)
  (flows : list float) (rest : list Timestamp) :
  cashflows = cf :: flows -> dates = d0 :: rest ->
  newton_loop float_pow (S n) cashflows dates rate = Raise TypeError.
Proof.
  intros Hc Hd. simpl.
  now rewrite (newton_step_raises cashflows dates rate cf d0 flows rest Hc Hd).
Qed.

(** Whatever the series, the range and the extra flows, [calculate_xirr]
    yields no rate: it returns [None] when fewer than two observations are
    in range and raises [TypeError] in its first Newton step otherwise. *)
Lemma xirr_yields_no_rate (self : FundAnalyzer) (start_date end_date : Timestamp)
  (additional_flows : list (Timestamp * float)) :
  calculate_xirr float_pow self start_date end_date additional_flows =
  if Z.of_nat (length (between (df self) (Some start_date) (Some end_date))) <? 2
  then Ok None else Raise TypeError.
Proof.
  unfold calculate_xirr.
  destruct (Z.ltb_spec
              (Z.of_nat (length (between (df self) (Some start_date) (Some end_date))))
              2) as [|Hlen]; [reflexivity|].
  destruct (between (df self) (Some start_date) (Some end_date)) as [|r rows];
    [simpl in Hlen; lia|].
  destruct (iloc_last_cons (nav r) (map nav rows)) as [last_nav Hn].
  destruct (iloc_last_cons (timestamp r) (map timestamp rows)) as [last_date Ht].
  cbn [map pd.iloc_first Py.bind]. rewrite Hn. cbn [Py.bind]. rewrite Ht.
  cbn [Py.bind]. eapply (newton_loop_raises 99); reflexivity.
Qed.

End Newton.

(** C1, at [[-100 @ day 0, 110 @ day 365]]: the code does not return about
    10 percent, it raises [TypeError]; its slope uses the date [d] where the
    day count in years belongs. *)
Theorem xirr_round_trip_raises (float_pow : float -> float -> float) :
  calculate_xirr float_pow (new_analyzer two_points None)
                 0 (pd.Timedelta 365) [] = Raise TypeError.
Proof.
  rewrite xirr_yields_no_rate.
  change (between (df (new_analyzer two_points None))
                  (Some 0) (Some (pd.Timedelta 365)))
    with (df (new_analyzer two_points None)).
  reflexivity.
Qed.

(* ================================================================== *)
(** ** The route as a whole *)
(* ================================================================== *)

Lemma gt_none_raises (b : object) : Py.gt PyNone b = Raise TypeError.
Proof. reflexivity. Qed.

Lemma gt_raises_type_error (a b : object) (e : exn) :
  Py.gt a b = Raise e -> e = TypeError.
Proof.
  unfold Py.gt. destruct (as_float a), (as_float b); intros H;
    first [discriminate | now injection H].
Qed.

(** Without an XIRR the engine cannot conclude: if no earlier comparison
    fails, [metrics['xirr'] > metrics['cagr']] does. *)
Lemma recommendation_needs_xirr (m : Metrics) :
  xirr m = PyNone -> get_investment_recommendation m = Raise TypeError.
Proof.
  intros Hx. unfold get_investment_recommendation. rewrite Hx.
  repeat match goal with
         | |- context [Py.gt ?a ?b] =>
             lazymatch a with
             | PyNone => rewrite (gt_none_raises b)
             | _ =>
                 let E := fresh "E" in
                 destruct (Py.gt a b) as [[|]|?] eqn:E;
                 [| |apply gt_raises_type_error in E; subst]
             end; cbn [Py.bind]
         end; reflexivity.
Qed.

(** X3: no request is answered: building the analyzer, a calculator or
    the recommendation raises, because [calculate_xirr] either raises or
    yields the [None] that the recommendation cannot compare. *)
Lemma analyze_always_raises (float_pow : float -> float -> float)
  (fund_data : list Observation) (fetched : option float) (data : Request) :
  exists e : exn, analyze float_pow fund_data fetched data = Raise e.
Proof.
  unfold analyze.
  destruct (__init__ fund_data fetched) as [analyzer|e]; [|eexists; reflexivity]. cbn [Py.bind].
  destruct (calculate_absolute_returns _ _ _) as [m_abs|e]; [|eexists; reflexivity]. cbn [Py.bind].
  destruct (rolling_returns_metric _ _) as [m_roll|e]; [|eexists; reflexivity]. cbn [Py.bind].
  destruct (calculate_cagr _ _ _ _) as [m_cagr|e]; [|eexists; reflexivity]. cbn [Py.bind].
  rewrite xirr_yields_no_rate.
  destruct (_ <? 2); [|eexists; reflexivity]. cbn [Py.bind].
  rewrite recommendation_needs_xirr by reflexivity. eexists; reflexivity.
Qed.

(* ================================================================== *)
(** ** Further behaviour of the calculators *)
(* ================================================================== *)

(** A range whose start lies after its end selects nothing, and neither
    does a range bounded by [NaT]. *)
Lemma between_reversed (frame : DataFrame) (last_date : option Timestamp)
  (days : Z) :
  days < 0 -> between frame (pd.minus_days last_date days) last_date = [].
Proof.
  intros Hd. unfold between. apply filter_none, Forall_forall. intros r _.
  destruct last_date as [t|]; simpl; [|reflexivity].
  apply andb_false_iff.
  destruct (Z.leb_spec (timestamp r) t); [left|now right].
  apply Z.leb_gt. unfold pd.Timedelta, pd.ns_per_day. lia.
Qed.

Lemma ends_of_list {A : Type} (l : list A) :
  (2 <= length l)%nat -> exists x mid y, l = x :: mid ++ [y].
Proof.
  destruct l as [|x tl]; simpl; [lia|]. intros Hlen.
  destruct (exists_last (l := tl)) as (mid & y & ->).
  - destruct tl; [simpl in Hlen; lia|discriminate].
  - eauto.
Qed.

(** X4: [calculate_cagr] gives [None] when fewer than two observations are
    in its window, in particular for every negative number of years; with
    two or more it raises [ZeroDivisionError] for zero years and otherwise
    returns [((nav_end / nav_start) ** (1 / years) - 1) * 100] on the first
    and last observation of the window. *)
Theorem cagr_cases (float_pow : float -> float -> float) (self : FundAnalyzer)
  (years : Z) (end_date : option Timestamp) :
  let window := cagr_window self years end_date in
  ((length window < 2)%nat ->
   calculate_cagr float_pow self years end_date = Ok None) /\
  (years < 0 -> calculate_cagr float_pow self years end_date = Ok None) /\
  ((2 <= length window)%nat -> years = 0 ->
   calculate_cagr float_pow self years end_date = Raise ZeroDivisionError) /\
  (forall (first last : Row) (middle : list Row),
      window = first :: middle ++ [last] -> years <> 0 ->
      calculate_cagr float_pow self years end_date =
      Ok (Some ((float_pow (nav last / nav first) (1 / float_of_Z years) - 1)
                * 100)%float)).
Proof.
  intros window.
  assert (Hcode : calculate_cagr float_pow self years end_date =
                  if Z.of_nat (length window) <? 2 then Ok None
                  else
                    initial_value <- pd.iloc_first (map nav window) ;;
                    final_value <- pd.iloc_last (map nav window) ;;
                    exponent <- (if years =? 0 then Raise ZeroDivisionError
                                 else Ok (1 / float_of_Z years)%float) ;;
                    Ok (Some ((float_pow (final_value / initial_value) exponent - 1)
                              * 100)%float)) by reflexivity.
  assert (Hshort : (length window < 2)%nat ->
                   calculate_cagr float_pow self years end_date = Ok None).
  { intros Hlen. rewrite Hcode.
    destruct (Z.ltb_spec (Z.of_nat (length window)) 2); [reflexivity|lia]. }
  assert (Hlong : forall first last middle,
             window = first :: middle ++ [last] ->
             calculate_cagr float_pow self years end_date =
             exponent <- (if years =? 0 then Raise ZeroDivisionError
                          else Ok (1 / float_of_Z years)%float) ;;
             Ok (Some ((float_pow (nav last / nav first) exponent - 1) * 100)%float)).
  { intros first last middle Hw. rewrite Hcode, Hw.
    simpl length. rewrite length_app. simpl length.
    destruct (Z.ltb_spec (Z.of_nat (S (length middle + 1))) 2); [lia|].
    simpl map. rewrite map_app. simpl map.
    change (nav first :: map nav middle ++ [nav last])
      with ((nav first :: map nav middle) ++ [nav last]).
    rewrite iloc_last_app. reflexivity. }
  split; [exact Hshort|]. split; [|split].
  - intros Hneg. apply Hshort. unfold window, cagr_window.
    rewrite between_reversed by lia. simpl. lia.
  - intros Hlen ->. destruct (ends_of_list window Hlen) as (x & mid & y & Hw).
    rewrite (Hlong x y mid Hw). reflexivity.
  - intros first last middle Hw Hy. rewrite (Hlong first last middle Hw).
    destruct (Z.eqb_spec years 0); [contradiction|reflexivity].
Qed.

(** X9: a series of fewer than 252 observations, or a negative number of
    years, never gets a Sharpe ratio. *)
Theorem sharpe_ratio_short_series (self : FundAnalyzer) (window_years : Z)
  (end_date : option Timestamp) :
  (length (df self) < 252)%nat \/ window_years < 0 ->
  calculate_sharpe_ratio self window_years end_date = None.
Proof.
  intros H.
  assert (Hlen : (length (sharpe_window self window_years end_date) < 252)%nat).
  { destruct H as [H|H].
    - eapply Nat.le_lt_trans; [apply filter_length_le|exact H].
    - unfold sharpe_window. rewrite between_reversed by lia. simpl. lia. }
  change (calculate_sharpe_ratio self window_years end_date)
    with (if Z.of_nat (length (sharpe_window self window_years end_date)) <? 252
          then None
          else Some (PrimFloat.sqrt 252 *
                     (pd.mean (excess_of self (sharpe_window self window_years end_date))
                      / pd.std (excess_of self (sharpe_window self window_years end_date))))%float).
  destruct (Z.ltb_spec (Z.of_nat (length (sharpe_window self window_years end_date))) 252);
    [reflexivity|lia].
Qed.

(** [sharpe_ratio_short_series] at 200 daily observations. *)
Lemma sharpe_ratio_short_series_witness :
  ((length (df (new_analyzer (flat_series 200) None)) < 252)%nat \/ 1 < 0) /\
  calculate_sharpe_ratio (new_analyzer (flat_series 200) None) 1 None = None.
Proof.
  assert (H : (length (df (new_analyzer (flat_series 200) None)) < 252)%nat \/ 1 < 0)
    by (left; apply Nat.ltb_lt; vm_compute; reflexivity).
  split; [exact H|].
  exact (sharpe_ratio_short_series _ 1 None H).
Defined.

Lemma range_starts_at_zero (n : Z) :
  0 < n -> exists rest, Py.range n = 0 :: rest.
Proof.
  intros Hn. unfold Py.range.
  destruct (Z.to_nat n) as [|k] eqn:E; [lia|]. simpl. eauto.
Qed.

Lemma empty_slice_from_zero {A : Type} (l : list A) (stop : Z) :
  stop = 0 \/ l = [] -> pd.iloc_slice l 0 stop = [].
Proof.
  intros [->| ->]; unfold pd.iloc_slice.
  - rewrite Z.sub_diag. reflexivity.
  - rewrite skipn_nil. apply firstn_nil.
Qed.

(** X5: a rolling window of zero or fewer months raises [IndexError]: the
    loop runs at least once and its first block is empty. *)
Theorem rolling_returns_nonpositive_window (self : FundAnalyzer)
  (window_months : Z) (end_date : option Timestamp) :
  window_months <= 0 ->
  calculate_rolling_returns self window_months end_date = Raise IndexError.
Proof.
  intros Hwm. unfold calculate_rolling_returns.
  change (between _ _ _) with (rolling_window self window_months end_date).
  destruct (range_starts_at_zero
              (Z.of_nat (length (rolling_window self window_months end_date))
               - window_months * 30 + 1)) as [rest ->]; [lia|].
  cbn [for_each]. unfold rolling_step.
  rewrite empty_slice_from_zero; [reflexivity|].
  destruct (Z.eq_dec window_months 0) as [->|Hne]; [now left|right].
  unfold rolling_window. apply between_reversed. lia.
Qed.

(** [rolling_returns_nonpositive_window] at a window of zero months. *)
Lemma rolling_returns_nonpositive_window_witness :
  0 <= 0 /\
  calculate_rolling_returns (new_analyzer two_points None) 0 None = Raise IndexError.
Proof.
  assert (H : 0 <= 0) by lia.
  split; [exact H|].
  exact (rolling_returns_nonpositive_window (new_analyzer two_points None) 0 None H).
Defined.

Lemma ascending_app (l1 l2 : list Z) :
  StronglySorted Z.le (l1 ++ l2) ->
  StronglySorted Z.le l1 /\ StronglySorted Z.le l2 /\
  (forall a b, In a l1 -> In b l2 -> a <= b).
Proof.
  induction l1 as [|x l1 IH]; simpl; intros Hs.
  - repeat split; [constructor|exact Hs|contradiction].
  - inversion Hs as [|? ? Hs' Hall]; subst.
    destruct (IH Hs') as (H1 & H2 & H3).
    rewrite Forall_app in Hall. destruct Hall as [Ha Hb].
    repeat split; [constructor; assumption|exact H2|].
    intros a b [<-|Ha'] Hb'; [|now apply H3].
    rewrite Forall_forall in Hb. now apply Hb.
Qed.

(** In an ascending block every timestamp lies between the first and the
    last one. *)
Lemma block_bounds (x y : Z) (mid : list Z) :
  StronglySorted Z.le (x :: mid ++ [y]) ->
  Forall (fun t => x <= t <= y) (x :: mid ++ [y]).
Proof.
  intros Hs. inversion Hs as [|? ? Hs' Hall]; subst.
  destruct (ascending_app mid [y] Hs') as (_ & _ & Hlast).
  rewrite Forall_forall in Hall.
  assert (x <= y) by (apply Hall, in_or_app; right; now left).
  constructor; [simpl; lia|].
  apply Forall_forall. intros t Ht. split; [now apply Hall|].
  apply in_app_or in Ht as [Ht|[<-|[]]]; [|lia].
  apply Hlast; [exact Ht|now left].
Qed.

Lemma filter_filter_length {A : Type} (p q : A -> bool) (l : list A) :
  (length (filter p (filter q l)) <= length (filter p l))%nat.
Proof.
  induction l as [|x l IH]; simpl; [lia|].
  destruct (q x); simpl; destruct (p x); simpl; lia.
Qed.

(** The absolute return exists as soon as two rows are selected. *)
Lemma absolute_returns_some (self : FundAnalyzer) (start_date end_date : Timestamp) :
  (2 <= length (between (df self) (Some start_date) (Some end_date)))%nat ->
  exists r, calculate_absolute_returns self start_date end_date = Ok (Some r).
Proof.
  intros Hlen. unfold calculate_absolute_returns.
  destruct (ends_of_list _ Hlen) as (x & mid & y & ->).
  simpl length. rewrite length_app. simpl length.
  destruct (Z.ltb_spec (Z.of_nat (S (length mid + 1))) 2); [lia|].
  simpl map. rewrite map_app. simpl map.
  change (nav x :: map nav mid ++ [nav y]) with ((nav x :: map nav mid) ++ [nav y]).
  rewrite iloc_last_app. simpl. eauto.
Qed.

Lemma slice_inside {A : Type} (l : list A) (i width : Z) :
  0 <= i -> 0 <= width -> i + width <= Z.of_nat (length l) ->
  pd.iloc_slice l i (i + width) =
  firstn (Z.to_nat width) (skipn (Z.to_nat i) l).
Proof.
  intros Hi Hw Hn. unfold pd.iloc_slice, pd.slice_bound.
  destruct (Z.ltb_spec i 0); [lia|].
  destruct (Z.ltb_spec (i + width) 0); [lia|].
  rewrite !Z.min_l by lia. now replace (i + width - i) with width by lia.
Qed.

(** One turn of the loop on a full block of an ascending selection of the
    frame records a return and a date. *)
Lemma rolling_step_records (raw : list Observation) (fetched : option float)
  (q : Row -> bool) (width i : Z) (state : list float * list Timestamp) :
  let self := new_analyzer raw fetched in
  let window := filter q (df self) in
  2 <= width -> 0 <= i -> i + width <= Z.of_nat (length window) ->
  exists r d,
    rolling_step self window width state i = Ok (fst state ++ [r], snd state ++ [d]).
Proof.
  intros self window Hw Hi Hn. destruct state as [rr ds].
  unfold rolling_step. rewrite slice_inside by lia.
  set (block := firstn (Z.to_nat width) (skipn (Z.to_nat i) window)).
  assert (Hlen : length block = Z.to_nat width).
  { unfold block. rewrite length_firstn, length_skipn. lia. }
  destruct (ends_of_list block) as (x & mid & y & Hb); [lia|].
  assert (Hsplit : window = firstn (Z.to_nat i) window
                            ++ block ++ skipn (Z.to_nat width) (skipn (Z.to_nat i) window)).
  { unfold block. now rewrite firstn_skipn, firstn_skipn. }
  assert (Hasc : StronglySorted Z.le (map timestamp window))
    by (apply ascending_select, preprocess_ascending).
  rewrite Hsplit, !map_app in Hasc.
  apply ascending_app in Hasc as (_ & Hasc & _).
  apply ascending_app in Hasc as (Hasc & _ & _).
  rewrite Hb in Hasc. simpl in Hasc. rewrite map_app in Hasc. simpl in Hasc.
  apply block_bounds in Hasc.
  assert (Hall : Forall (fun r => in_range (timestamp x) (timestamp y) (timestamp r) = true)
                        block).
  { rewrite Hb. change (x :: mid ++ [y]) with ((x :: mid) ++ [y]).
    change (timestamp x :: map timestamp mid ++ [timestamp y])
      with (map timestamp (x :: mid) ++ map timestamp [y]) in Hasc.
    rewrite <- map_app in Hasc. rewrite Forall_map in Hasc.
    eapply Forall_impl; [|exact Hasc]. intros r Hr. simpl in Hr.
    unfold in_range. apply andb_true_iff. split; apply Z.leb_le; lia. }
  assert (Hcount : (2 <= length (between (df self) (Some (timestamp x))
                                         (Some (timestamp y))))%nat).
  { change (between (df self) (Some (timestamp x)) (Some (timestamp y)))
      with (filter (fun r => in_range (timestamp x) (timestamp y) (timestamp r))
                   (df self)).
    eapply Nat.le_trans; [|apply (filter_filter_length _ q)].
    fold window. rewrite Hsplit, !filter_app, !length_app.
    rewrite (filter_all _ block Hall). lia. }
  destruct (absolute_returns_some self _ _ Hcount) as [r Hr].
  rewrite Hb. simpl map. rewrite map_app. simpl map.
  change (timestamp x :: map timestamp mid ++ [timestamp y])
    with ((timestamp x :: map timestamp mid) ++ [timestamp y]).
  rewrite iloc_last_app. cbn [pd.iloc_first app Py.bind].
  rewrite Hr. cbn [Py.bind fst snd]. eauto.
Qed.

Lemma for_each_records {V D : Type} (body : list V * list D -> Z -> result (list V * list D))
  (count : nat) :
  forall (start : nat) (state : list V * list D),
    (forall i state, (start <= i < start + count)%nat ->
                     exists r d, body state (Z.of_nat i)
                                 = Ok (fst state ++ [r], snd state ++ [d])) ->
    exists state',
      for_each body (map Z.of_nat (seq start count)) state = Ok state' /\
      length (fst state') = (length (fst state) + count)%nat /\
      length (snd state') = (length (snd state) + count)%nat.
Proof.
  induction count as [|count IH]; intros start state Hbody; simpl.
  - exists state. repeat split; lia.
  - destruct (Hbody start state) as (r & d & ->); [lia|]. cbn [Py.bind].
    destruct (IH (S start) (fst state ++ [r], snd state ++ [d])) as (state' & -> & H1 & H2).
    { intros i st Hi. apply Hbody. lia. }
    exists state'. split; [reflexivity|].
    simpl in H1, H2. rewrite length_app in H1, H2. simpl in H1, H2. lia.
Qed.

(** X6: for a window of one month or more, [calculate_rolling_returns]
    never raises and records one return and one date for every block of
    [window_days] consecutive observations of the requested range:
    [len(period_data) - window_days + 1] of each, none when that is not
    positive. *)
Theorem rolling_returns_per_block (raw : list Observation)
  (fetched : option float) (window_months : Z) (end_date : option Timestamp) :
  0 < window_months ->
  let self := new_analyzer raw fetched in
  let blocks :=
    Z.to_nat (Z.of_nat (length (rolling_window self window_months end_date))
              - window_months * 30 + 1) in
  exists series : Series,
    calculate_rolling_returns self window_months end_date = Ok series /\
    length (values series) = blocks /\ length (index series) = blocks.
Proof.
  intros Hwm self blocks. unfold calculate_rolling_returns.
  change (between _ _ _) with (rolling_window self window_months end_date).
  unfold Py.range. fold blocks.
  destruct (for_each_records
              (rolling_step self (rolling_window self window_months end_date)
                            (window_months * 30))
              blocks 0 ([], [])) as ([rr ds] & -> & H1 & H2).
  - intros i state Hi.
    apply (rolling_step_records raw fetched _ (window_months * 30) (Z.of_nat i) state);
      unfold blocks in Hi; fold self; unfold rolling_window, between in *; lia.
  - cbn [Py.bind]. eexists. split; [reflexivity|]. simpl in *. lia.
Qed.

(** [rolling_returns_per_block] at 31 daily observations and one month:
    two blocks. *)
Lemma rolling_returns_per_block_witness :
  0 < 1 /\
  exists series : Series,
    calculate_rolling_returns (new_analyzer (flat_series 31) None) 1 None = Ok series /\
    length (values series) = 2%nat.
Proof.
  assert (H : 0 < 1) by lia.
  split; [exact H|].
  destruct (rolling_returns_per_block (flat_series 31) None 1 None H)
    as (series & E & Hv & _).
  exists series. split; [exact E|]. rewrite Hv. vm_compute. reflexivity.
Defined.

(* ================================================================== *)
(** ** Further behaviour of the historical data *)
(* ================================================================== *)

Lemma dict_set_keys {V : Type} (d : list (string * V)) (k : string) (v : V) :
  map fst (dict_set d k v) =
  if in_dec string_dec k (map fst d) then map fst d else map fst d ++ [k].
Proof.
  induction d as [|[k0 v0] d IH]; simpl; [reflexivity|].
  destruct (String.eqb_spec k0 k) as [->|Hne]; simpl.
  - destruct (string_dec k k); [|contradiction].
    destruct (in_dec string_dec k (k :: map fst d)) as [_|Hn]; [reflexivity|].
    exfalso. apply Hn. now left.
  - rewrite IH. destruct (string_dec k0 k); [contradiction|].
    destruct (in_dec string_dec k (map fst d)) as [Hin|Hn];
      destruct (in_dec string_dec k (k0 :: map fst d)) as [Hin'|Hn'];
      try reflexivity;
      try (exfalso; apply Hn'; now right);
      try (destruct Hin'; contradiction).
Qed.

Lemma dict_set_nodup {V : Type} (d : list (string * V)) (k : string) (v : V) :
  NoDup (map fst d) -> NoDup (map fst (dict_set d k v)).
Proof.
  intros Hd. rewrite dict_set_keys.
  destruct (in_dec string_dec k (map fst d)) as [|Hn]; [exact Hd|].
  apply NoDup_app; [exact Hd|repeat constructor; intros []|].
  intros x Hx [<-|[]]. contradiction.
Qed.

Section Lookups.

Context {V : Type} (value : Z -> V).

Let assign (d : list (string * V)) (p : Z) := dict_set d (month_key p) (value p).

Lemma assigned_nodup (todo : list Z) :
  forall d, NoDup (map fst d) -> NoDup (map fst (fold_left assign todo d)).
Proof.
  induction todo as [|q todo IH]; intros d Hd; simpl; [exact Hd|].
  apply IH, dict_set_nodup, Hd.
Qed.

Lemma unassigned_absent (p : Z) (todo : list Z) :
  ~ In p todo ->
  forall d, dict_get d (month_key p) = None ->
            dict_get (fold_left assign todo d) (month_key p) = None.
Proof.
  induction todo as [|q todo IH]; intros Hp d Hd; simpl; [exact Hd|].
  apply IH; [intros Hin; apply Hp; now right|].
  unfold assign. rewrite dict_get_set.
  destruct (String.eqb_spec (month_key q) (month_key p)) as [E|_]; [|exact Hd].
  apply month_key_inj in E. subst. exfalso. apply Hp. now left.
Qed.

End Lookups.

(** X7: whatever list of periods is requested, also one with repeats, the
    historical data holds under the key of a requested period the entry of
    that period, holds nothing under the key of a period that was not
    requested, and has no key twice. *)
Theorem historical_data_lookup (self : FundAnalyzer) (months : list Z) (p : Z) :
  (In p months ->
   dict_get (get_historical_data self months) (month_key p)
     = Some (history_of self p)) /\
  (~ In p months ->
   dict_get (get_historical_data self months) (month_key p) = None) /\
  NoDup (map fst (get_historical_data self months)).
Proof.
  unfold get_historical_data, history_of. split; [|split].
  - intros Hp. exact (assigned_found _ p months Hp []).
  - intros Hp. exact (unassigned_absent _ p months Hp [] eq_refl).
  - apply (assigned_nodup (period_history self (pd.max (map timestamp (df self))))).
    constructor.
Qed.

Lemma ascending_last_bounds (l : list Z) (z : Z) :
  StronglySorted Z.le (l ++ [z]) -> Forall (fun t => t <= z) (l ++ [z]).
Proof.
  intros Hs. destruct (ascending_app l [z] Hs) as (_ & _ & H).
  apply Forall_app. split.
  - apply Forall_forall. intros t Ht. apply H; [exact Ht|now left].
  - repeat constructor. lia.
Qed.

(** X11: for a non-empty series and a period of zero or more months the
    entry is not empty and ends with the latest observation; for a negative
    period it is empty. *)
Theorem history_ends_with_latest (raw : list Observation)
  (fetched : option float) (months : Z) :
  raw <> [] ->
  let self := new_analyzer raw fetched in
  exists (latest : Timestamp) (last_row : Row),
    pd.max (map timestamp (df self)) = Some latest /\
    timestamp last_row = latest /\
    pd.iloc_last (df self) = Ok last_row /\
    (0 <= months ->
     exists (older_dates : list Timestamp) (older_values : list float),
       h_dates (history_of self months) = older_dates ++ [latest] /\
       h_values (history_of self months) = older_values ++ [nav last_row]) /\
    (months < 0 ->
     h_dates (history_of self months) = [] /\
     h_values (history_of self months) = []).
Proof.
  intros Hne self.
  destruct (column_max_latest (map timestamp (df self))) as (latest & Hmax & Hin & Hall).
  { intros E. apply (f_equal (@length _)) in E.
    unfold self in E. simpl in E. rewrite length_map, preprocess_length in E.
    destruct raw; [contradiction|discriminate]. }
  assert (Hrows : df self <> []) by (intros E; rewrite E in Hin; contradiction).
  destruct (exists_last Hrows) as (init & last_row & Hdf).
  pose proof (preprocess_ascending raw) as Hasc.
  change (_preprocess_data raw) with (df self) in Hasc.
  rewrite Hdf, map_app in Hasc. simpl in Hasc.
  apply ascending_last_bounds in Hasc.
  assert (Hlast : timestamp last_row = latest).
  { rewrite Forall_forall in Hasc, Hall.
    rewrite Hdf, map_app in Hin, Hall. simpl in Hin, Hall.
    specialize (Hasc latest Hin).
    assert (Hl : In (timestamp last_row) (map timestamp init ++ [timestamp last_row]))
      by (apply in_or_app; right; now left).
    specialize (Hall _ Hl). lia. }
  exists latest, last_row. split; [exact Hmax|]. split; [exact Hlast|].
  split; [rewrite Hdf; apply iloc_last_app|].
  unfold history_of. rewrite Hmax. unfold period_history. cbn [h_dates h_values].
  split.
  - intros Hm. rewrite Hdf, filter_app. simpl.
    replace (latest - pd.Timedelta (months * 30) <=? timestamp last_row) with true.
    + rewrite !map_app. simpl. rewrite Hlast. eauto.
    + symmetry. apply Z.leb_le. unfold pd.Timedelta, pd.ns_per_day. lia.
  - intros Hm. rewrite filter_none; [split; reflexivity|].
    apply Forall_forall. intros r Hr. simpl. apply Z.leb_gt.
    rewrite Forall_forall in Hall.
    specialize (Hall (timestamp r) (in_map timestamp _ _ Hr)).
    unfold pd.Timedelta, pd.ns_per_day. lia.
Qed.

(** [history_ends_with_latest] at the two observations [100], [110]. *)
Lemma history_ends_with_latest_witness :
  two_points <> [] /\
  exists latest : Timestamp,
    pd.max (map timestamp (df (new_analyzer two_points None))) = Some latest.
Proof.
  assert (H : two_points <> []) by discriminate.
  split; [exact H|].
  destruct (history_ends_with_latest two_points None 1 H) as (latest & _ & E & _).
  exists latest. exact E.
Defined.

(* ================================================================== *)
(** ** Further behaviour of the recommendation and of the frame *)
(* ================================================================== *)

(** X8: on numbers the score lies between 0 and 9; there are three
    reasons, and a fourth exactly when the XIRR exceeds the CAGR; there are
    always three action items; and a fund whose Sharpe ratio and CAGR both
    miss every tier is an EXIT whatever its rolling return and XIRR. *)
Theorem recommendation_shape (a : object) (s c r x : float) :
  exists res : Recommendation,
    get_investment_recommendation (numeric_bundle a s c r x) = Ok res /\
    0 <= score res <= 9 /\
    length (reasons res) = (3 + Z.to_nat (timing_points x c))%nat /\
    length (action_items res) = 3%nat /\
    (sharpe_points s = 0 -> cagr_points c = 0 ->
     recommendation res = advice_label EXIT).
Proof.
  unfold get_investment_recommendation, numeric_bundle, Py.gt, Py.as_float,
    sharpe_points, cagr_points, rolling_points, timing_points.
  cbn [sharpe_ratio cagr rolling_returns xirr].
  change (float_of_Z 1) with 1%float. change (float_of_Z 15) with 15%float.
  change (float_of_Z 10) with 10%float. change (float_of_Z 7) with 7%float.
  change (float_of_Z 12) with 12%float. change (float_of_Z 8) with 8%float.
  split_tiers s c r x; cbn;
    (eexists; split; [reflexivity|]); cbn;
    (split; [lia|]); (split; [reflexivity|]); (split; [reflexivity|]);
    intros Hs Hc; first [discriminate | reflexivity].
Qed.

Section Uniqueness.

Context {A : Type} (key : A -> Z).

Lemma key_injective_on (l : list A) (a b : A) :
  NoDup (map key l) -> In a l -> In b l -> key a = key b -> a = b.
Proof.
  induction l as [|x l IH]; simpl; intros Hnd Ha Hb E; [contradiction|].
  inversion Hnd as [|? ? Hx Hnd']; subst.
  destruct Ha as [<-|Ha], Hb as [<-|Hb]; auto.
  - exfalso. apply Hx. rewrite E. now apply in_map.
  - exfalso. apply Hx. rewrite <- E. now apply in_map.
Qed.

(** Two ascending arrangements of the same rows with distinct keys are the
    same list. *)
Lemma ascending_unique (l1 : list A) :
  forall l2 : list A,
    StronglySorted (fun a b => key a <= key b) l1 ->
    StronglySorted (fun a b => key a <= key b) l2 ->
    Permutation l1 l2 -> NoDup (map key l1) -> l1 = l2.
Proof.
  induction l1 as [|x l1 IH]; intros l2 H1 H2 Hp Hnd.
  - now apply Permutation_nil in Hp.
  - destruct l2 as [|y l2]; [apply Permutation_sym, Permutation_nil in Hp; discriminate|].
    inversion H1 as [|? ? H1' Hx]; subst. inversion H2 as [|? ? H2' Hy]; subst.
    rewrite Forall_forall in Hx, Hy.
    assert (Hyin : In y (x :: l1))
      by (eapply Permutation_in; [apply Permutation_sym, Hp|now left]).
    assert (Hxin : In x (y :: l2))
      by (eapply Permutation_in; [exact Hp|now left]).
    assert (E : x = y).
    { apply (key_injective_on (x :: l1)); auto; [now left|].
      assert (key x <= key y) by (destruct Hyin as [<-|Hy']; [lia|now apply Hx]).
      assert (key y <= key x) by (destruct Hxin as [<-|Hx']; [lia|now apply Hy]).
      lia. }
    subst y. f_equal. apply IH; auto.
    + now apply Permutation_cons_inv in Hp.
    + now inversion Hnd.
Qed.

End Uniqueness.

(** X10: when the timestamps are pairwise distinct the frame does not
    depend on the order in which the observations arrive. *)
Theorem preprocess_order_independent (raw raw' : list Observation) :
  Permutation raw raw' -> NoDup (map obs_timestamp raw) ->
  _preprocess_data raw = _preprocess_data raw'.
Proof.
  intros Hp Hnd.
  assert (E : pd.sort_values obs_timestamp raw = pd.sort_values obs_timestamp raw').
  { apply (ascending_unique obs_timestamp); try apply sort_values_sorted.
    - eapply perm_trans; [apply Permutation_sym, sort_values_perm|].
      eapply perm_trans; [exact Hp|apply sort_values_perm].
    - eapply Permutation_NoDup; [|exact Hnd].
      apply Permutation_map, sort_values_perm. }
  unfold _preprocess_data. now rewrite E.
Qed.

(** [preprocess_order_independent] at the two observations [100], [110]
    and the same two in the other order. *)
Lemma preprocess_order_independent_witness :
  (Permutation two_points (rev two_points) /\ NoDup (map obs_timestamp two_points)) /\
  _preprocess_data two_points = _preprocess_data (rev two_points).
Proof.
  assert (Hp : Permutation two_points (rev two_points)) by apply Permutation_rev.
  assert (Hn : NoDup (map obs_timestamp two_points)).
  { repeat constructor; simpl; intros H; repeat destruct H as [H|H]; try discriminate H; exact H. }
  split; [split; assumption|].
  exact (preprocess_order_independent two_points (rev two_points) Hp Hn).
Defined.

(* ================================================================== *)
(** ** What the XIRR and the recommendation never do *)
(* ================================================================== *)


(** X2: a bundle that carries [None] for the Sharpe ratio, the CAGR, the
    rolling return or the XIRR gets no recommendation, whatever its other
    metrics are: the engine raises [TypeError]. *)
Theorem recommendation_rejects_none (m : Metrics) :
  sharpe_ratio m = PyNone \/ cagr m = PyNone \/
  rolling_returns m = PyNone \/ xirr m = PyNone ->
  get_investment_recommendation m = Raise TypeError.
Proof.
  intros H. unfold get_investment_recommendation.
  destruct H as [H|[H|[H|H]]]; rewrite H;
    repeat match goal with
           | |- context [Py.gt ?a ?b] =>
               lazymatch a with
               | PyNone => rewrite (gt_none_raises b)
               | _ =>
                   let E := fresh "E" in
                   destruct (Py.gt a b) as [[|]|?] eqn:E;
                   [| |apply gt_raises_type_error in E; subst]
               end; cbn [Py.bind]
           end; reflexivity.
Qed.

(** [recommendation_rejects_none] at a bundle without a CAGR. *)
Lemma recommendation_rejects_none_witness :
  get_investment_recommendation
    {| absolute_returns := PyNone; rolling_returns := PyFloat nan;
       cagr := PyNone; xirr := PyFloat 12; sharpe_ratio := PyFloat 2 |}
    = Raise TypeError.
Proof.
  exact (recommendation_rejects_none
           {| absolute_returns := PyNone; rolling_returns := PyFloat nan;
              cagr := PyNone; xirr := PyFloat 12; sharpe_ratio := PyFloat 2 |}
           (or_intror (or_introl eq_refl))).
Defined.
